(** * lisspyscope: the Lissajous waveform generator of [lisspyscope/core.py]

    A shallow embedding of [_lcm], [_auto_duration], [_validate] and
    [generate_lissajous], together with the NumPy calls they make, and the
    properties of the generator stated over it.

    Numbers.  A Python argument is an [int] or a [float]; the tag is kept
    because [_validate] inspects it ([isinstance(ratio, int)]).  The value of
    a Python [float] and of a NumPy array element is taken to be a real
    number: IEEE-754 rounding, infinities and NaN are outside this model, so
    every statement below is about the exact arithmetic the code describes.
    The element type an array is created with ([dtype=np.float32]) is kept
    as a tag on the array. *)

From Stdlib Require Import Reals ZArith String List Bool Lia Lra.
Import ListNotations.

Open Scope R_scope.

(** ** Python values and exceptions *)

Inductive pynum : Type :=
  | PyInt (z : Z)
  | PyFloat (x : R).

(** The numeric value of a Python number (what comparisons and float
    arithmetic see). *)
Definition py_real (v : pynum) : R :=
  match v with
  | PyInt z => IZR z
  | PyFloat x => x
  end.

(** [isinstance(v, int)] *)
Definition isinstance_int (v : pynum) : bool :=
  match v with
  | PyInt _ => true
  | PyFloat _ => false
  end.

(** [v <= 0] *)
Definition py_le0 (v : pynum) : bool :=
  if Rle_dec (py_real v) 0 then true else false.

(** [a * b]: an [int] when both operands are, a [float] otherwise. *)
Definition py_mul (a b : pynum) : pynum :=
  match a, b with
  | PyInt x, PyInt y => PyInt (x * y)
  | _, _ => PyFloat (py_real a * py_real b)
  end.

Inductive exn : Type :=
  | ValueError (msg : string)
  | TypeError (msg : string)
  | ZeroDivisionError (msg : string).

Inductive result (A : Type) : Type :=
  | Ok (a : A)
  | Raise (e : exn).

Arguments Ok {A} a.
Arguments Raise {A} e.

Definition bind {A B : Type} (m : result A) (k : A -> result B) : result B :=
  match m with
  | Ok a => k a
  | Raise e => Raise e
  end.

Notation "x <- m ;; k" := (bind m (fun x => k))
  (at level 61, m at next level, right associativity).

(** [int(x)] on a float: truncation toward zero. *)
Definition py_int (x : R) : Z :=
  if Rle_dec 0 x then Int_part x else (- Int_part (- x))%Z.

(** [a / b] for an [int] [a]: true division, with a float result; a zero
    divisor raises. *)
Definition py_truediv (a : Z) (b : pynum) : result R :=
  if Req_dec_T (py_real b) 0 then
    Raise (ZeroDivisionError
             match b with
             | PyInt _ => "division by zero"
             | PyFloat _ => "float division by zero"
             end)
  else Ok (IZR a / py_real b).

(** ** NumPy arrays *)

Inductive dtype : Type := float32 | float64.

(** A one-dimensional array. *)
Record ndarray : Type := mk_ndarray {
  dtype_of : dtype;
  data : list R
}.

(** A two-dimensional array with two columns: one row per stereo frame. *)
Record ndarray2 : Type := mk_ndarray2 {
  dtype_of2 : dtype;
  rows : list (R * R)
}.

(** [buffer.shape] *)
Definition shape (b : ndarray2) : nat * nat := (length (rows b), 2%nat).

(** NumPy's type promotion on the two float types. *)
Definition result_type (a b : dtype) : dtype :=
  match a, b with
  | float32, float32 => float32
  | _, _ => float64
  end.

(** [np.deg2rad(x)] *)
Definition np_deg2rad (x : R) : R := x * (PI / 180).

(** [np.linspace(start, stop, num, endpoint=False, dtype=dt)]: [num] points
    [start + k * step] with [step = (stop - start) / num]. *)
Definition np_linspace (start stop : R) (num : Z) (dt : dtype) : result ndarray :=
  if (num <? 0)%Z then
    Raise (ValueError "Number of samples must be non-negative.")
  else
    let step := (stop - start) / IZR num in
    Ok (mk_ndarray dt
          (map (fun k => INR k * step + start) (seq 0 (Z.to_nat num)))).

(** [c * a] for a scalar [c] and an array [a]. *)
Definition np_scale (c : R) (a : ndarray) : ndarray :=
  mk_ndarray (dtype_of a) (map (fun x => c * x) (data a)).

(** [a + c] for an array [a] and a scalar [c]. *)
Definition np_shift (a : ndarray) (c : R) : ndarray :=
  mk_ndarray (dtype_of a) (map (fun x => x + c) (data a)).

(** [np.sin(a, dtype=dt)] *)
Definition np_sin (a : ndarray) (dt : dtype) : ndarray :=
  mk_ndarray dt (map sin (data a)).

(** [np.column_stack((a, b))] on two one-dimensional arrays. *)
Definition np_column_stack (a b : ndarray) : result ndarray2 :=
  if Nat.eqb (length (data a)) (length (data b)) then
    Ok (mk_ndarray2 (result_type (dtype_of a) (dtype_of b))
          (combine (data a) (data b)))
  else
    Raise (ValueError "all the input array dimensions must match exactly").

(** One element of [np.clip]: [minimum(maximum(x, lo), hi)]. *)
Definition clip1 (lo hi x : R) : R := Rmin (Rmax x lo) hi.

(** [np.clip(b, lo, hi, out=b)] *)
Definition np_clip (b : ndarray2) (lo hi : R) : ndarray2 :=
  mk_ndarray2 (dtype_of2 b)
    (map (fun fr => (clip1 lo hi (fst fr), clip1 lo hi (snd fr))) (rows b)).

(** ** core.py *)

Definition DEFAULT_BASE_FREQ : pynum := PyFloat 1000.
Definition DEFAULT_RATIO : pynum := PyInt 1.
Definition DEFAULT_PHASE_DEG : pynum := PyFloat 90.
Definition DEFAULT_SR : pynum := PyInt 48000.

(** [_lcm(a, b)]: [abs(a * b) // gcd(a, b)]; [math.gcd] refuses a float. *)
Definition _lcm (a b : pynum) : result Z :=
  match a, b with
  | PyInt x, PyInt y =>
      if (Z.gcd x y =? 0)%Z then
        Raise (ZeroDivisionError "integer division or modulo by zero")
      else Ok (Z.abs (x * y) / Z.gcd x y)%Z
  | _, _ =>
      Raise (TypeError "'float' object cannot be interpreted as an integer")
  end.

(** [_auto_duration(base_freq, ratio)]: [_lcm(1, ratio) / base_freq] *)
Definition _auto_duration (base_freq ratio : pynum) : result R :=
  m <- _lcm (PyInt 1) ratio ;;
  py_truediv m base_freq.

(** [_validate(base_freq, ratio, sr)] *)
Definition _validate (base_freq ratio sr : pynum) : result unit :=
  if py_le0 base_freq then
    Raise (ValueError "base_freq must be positive.")
  else if py_le0 ratio || negb (isinstance_int ratio) then
    Raise (ValueError "ratio must be a positive integer.")
  else if py_le0 sr then
    Raise (ValueError "sample rate must be positive.")
  else Ok tt.

(** [generate_lissajous(base_freq, ratio, phase_deg, sr)] *)
Definition generate_lissajous (base_freq ratio phase_deg sr : pynum)
  : result (ndarray2 * pynum) :=
  _ <- _validate base_freq ratio sr ;;
  let f_left := base_freq in
  let f_right := py_mul base_freq ratio in
  let phase := np_deg2rad (py_real phase_deg) in
  duration <- _auto_duration base_freq ratio ;;
  t <- np_linspace 0 duration (py_int (py_real sr * duration)) float32 ;;
  let left := np_sin (np_scale (2 * PI * py_real f_left) t) float32 in
  let right :=
    np_sin (np_shift (np_scale (2 * PI * py_real f_right) t) phase) float32 in
  buffer <- np_column_stack left right ;;
  Ok (np_clip buffer (-1) 1, sr).

(** ** Vocabulary of the statements *)

(** The inputs the generator is specified for: a positive base frequency,
    a positive [int] ratio, any phase, a positive [int] sample rate. *)
Definition valid_input (base_freq ratio phase_deg sr : pynum) : Prop :=
  0 < py_real base_freq /\
  (exists r : Z, ratio = PyInt r /\ (0 < r)%Z) /\
  (exists s : Z, sr = PyInt s /\ (0 < s)%Z).

(** [ratio] is an [int] object with a positive value. *)
Definition positive_int (v : pynum) : Prop :=
  exists z : Z, v = PyInt z /\ (0 < z)%Z.

(** The closure duration in exact arithmetic: [ratio / base_freq]. *)
Definition duration_of (base_freq ratio : pynum) : R :=
  py_real ratio / py_real base_freq.

(** The frame count: [floor(sr * duration)]. *)
Definition frame_count (base_freq ratio sr : pynum) : Z :=
  Int_part (py_real sr * duration_of base_freq ratio).

(** The [k]-th of [N] evenly spaced times over [[0, duration)]. *)
Definition sample_time (base_freq ratio sr : pynum) (k : nat) : R :=
  INR k * duration_of base_freq ratio / IZR (frame_count base_freq ratio sr).

(** The arguments of the two sines at sample [k]. *)
Definition phase_left (base_freq ratio sr : pynum) (k : nat) : R :=
  2 * PI * py_real base_freq * sample_time base_freq ratio sr k.

Definition phase_right (base_freq ratio phase_deg sr : pynum) (k : nat) : R :=
  2 * PI * (py_real base_freq * py_real ratio) * sample_time base_freq ratio sr k
  + py_real phase_deg * PI / 180.

(** Two angles are within [eps] of each other modulo a whole number of
    turns. *)
Definition close_mod_2PI (a b eps : R) : Prop :=
  exists m : Z, Rabs (a - b - 2 * PI * IZR m) <= eps.

(** One sample step of each channel: the phase advance between two
    consecutive samples. *)
Definition phase_step_left (base_freq ratio sr : pynum) : R :=
  phase_left base_freq ratio sr 1 - phase_left base_freq ratio sr 0.

Definition phase_step_right (base_freq ratio phase_deg sr : pynum) : R :=
  phase_right base_freq ratio phase_deg sr 1
  - phase_right base_freq ratio phase_deg sr 0.

(** ** The convenience wrappers of core.py

    [play_lissajous] and [plot_lissajous] return nothing: what they do is
    what they hand to the audio sink and to matplotlib.  The sink
    ([play_buffer], imported from [lisspyscope.audio]) is a parameter: a
    transformer of some world [W] that may raise an [E].  The calls made
    on [matplotlib.pyplot] are collected in a list, in the order they are
    made; the text of the title, an f-string over the arguments, is a
    parameter. *)


(** [np.vstack([a, b])] on two two-column arrays. *)
Definition np_vstack (a b : ndarray2) : ndarray2 :=
  mk_ndarray2 (result_type (dtype_of2 a) (dtype_of2 b)) (rows a ++ rows b).

(** [x, y = b.T]: the two columns of a two-column array. *)
Definition np_T_unpack (b : ndarray2) : ndarray * ndarray :=
  (mk_ndarray (dtype_of2 b) (map fst (rows b)),
   mk_ndarray (dtype_of2 b) (map snd (rows b))).

(** The calls [plot_lissajous] makes on [matplotlib.pyplot]. *)
Inductive plt_call : Type :=
  | plt_plot (x y : ndarray) (lw : R)
  | plt_title (s : string)
  | plt_axis (s : string)
  | plt_xlabel (s : string)
  | plt_ylabel (s : string)
  | plt_grid (ls : string)
  | plt_show.

Inductive plot_outcome : Type :=
  | Drawn (calls : list plt_call)
  | PlotImportError (msg : string)
  | PlotRaise (e : exn).

(** [plot_lissajous(base_freq, ratio, phase_deg, sr)]; [matplotlib] says
    whether [import matplotlib.pyplot] succeeds. *)
Definition plot_lissajous (matplotlib : bool)
  (title : pynum -> pynum -> pynum -> string)
  (base_freq ratio phase_deg sr : pynum) : plot_outcome :=
  if negb matplotlib then
    PlotImportError
      "Plotting requires matplotlib → pip install lisspyscope[plot]"
  else
    match generate_lissajous base_freq ratio phase_deg sr with
    | Raise e => PlotRaise e
    | Ok (buffer, _) =>
        let double_buf := np_vstack buffer buffer in
        let (x, y) := np_T_unpack double_buf in
        Drawn [plt_plot x y (8 / 10);
               plt_title (title base_freq ratio phase_deg);
               plt_axis "equal";
               plt_xlabel "Left channel";
               plt_ylabel "Right channel";
               plt_grid ":";
               plt_show]
    end.

(** Closes the cases of a statement that sorts the validation errors. *)
Ltac message_case :=
  repeat split; intros;
  repeat match goal with H : _ /\ _ |- _ => destruct H end;
  try discriminate; try contradiction; try lra; try assumption.

(** ** Python arithmetic *)

Lemma py_le0_true (v : pynum) : py_le0 v = true <-> py_real v <= 0.
Proof.
  unfold py_le0. destruct (Rle_dec (py_real v) 0); split; intros; try easy.
Qed.

Lemma py_le0_false (v : pynum) : py_le0 v = false <-> 0 < py_real v.
Proof.
  unfold py_le0. destruct (Rle_dec (py_real v) 0); split; intros; try easy; lra.
Qed.

Lemma py_real_mul (a b : pynum) : py_real (py_mul a b) = py_real a * py_real b.
Proof.
  destruct a, b; simpl; try reflexivity. apply mult_IZR.
Qed.

Lemma Int_part_nonneg (x : R) : 0 <= x -> (0 <= Int_part x)%Z.
Proof.
  intros Hx. destruct (base_Int_part x) as [_ H].
  apply Z.lt_succ_r, lt_IZR. rewrite succ_IZR. lra.
Qed.

Lemma py_int_nonneg (x : R) : 0 <= x -> py_int x = Int_part x.
Proof.
  intros Hx. unfold py_int. destruct (Rle_dec 0 x); [reflexivity | contradiction].
Qed.


Lemma py_truediv_pos (a : Z) (b : pynum) :
  0 < py_real b -> py_truediv a b = Ok (IZR a / py_real b).
Proof.
  intros Hb. unfold py_truediv.
  destruct (Req_dec_T (py_real b) 0); [lra | reflexivity].
Qed.

(** ** The helpers of core.py *)

(** [_lcm] computes the least common multiple of any two integers that are
    not both zero, and raises on [(0, 0)]. *)
Lemma _lcm_correct (a b : Z) :
  _lcm (PyInt a) (PyInt b) =
    if (Z.gcd a b =? 0)%Z then
      Raise (ZeroDivisionError "integer division or modulo by zero")
    else Ok (Z.lcm a b).
Proof.
  unfold _lcm. destruct (Z.eqb_spec (Z.gcd a b) 0) as [|Hg]; [reflexivity|].
  f_equal. unfold Z.lcm.
  destruct (Z.gcd_divide_r a b) as [q Hq].
  pose proof (Z.gcd_nonneg a b) as Hpos.
  rewrite Hq at 1 3. rewrite Z.div_mul by exact Hg.
  rewrite Z.mul_assoc, Z.abs_mul, (Z.abs_eq (Z.gcd a b)) by exact Hpos.
  apply Z.div_mul, Hg.
Qed.

Lemma _lcm_1_lcm (r : Z) : _lcm (PyInt 1) (PyInt r) = Ok (Z.lcm 1 r).
Proof.
  rewrite _lcm_correct, Z.gcd_1_l. reflexivity.
Qed.

Lemma _lcm_1_int (r : Z) : _lcm (PyInt 1) (PyInt r) = Ok (Z.abs r).
Proof.
  rewrite _lcm_1_lcm, Z.lcm_1_l. reflexivity.
Qed.

Lemma _auto_duration_valid (base_freq : pynum) (r : Z) :
  0 < py_real base_freq -> (0 < r)%Z ->
  _auto_duration base_freq (PyInt r) = Ok (IZR r / py_real base_freq).
Proof.
  intros Hb Hr. unfold _auto_duration. rewrite _lcm_1_int. cbn [bind].
  rewrite Z.abs_eq by lia. apply py_truediv_pos, Hb.
Qed.

Lemma _validate_Ok (base_freq ratio sr : pynum) :
  _validate base_freq ratio sr = Ok tt <->
  0 < py_real base_freq /\ positive_int ratio /\ 0 < py_real sr.
Proof.
  unfold _validate, positive_int. split.
  - destruct (py_le0 base_freq) eqn:Hb; [discriminate|].
    destruct (py_le0 ratio) eqn:Hr; [discriminate|].
    destruct ratio as [z|x]; simpl; [|discriminate].
    destruct (py_le0 sr) eqn:Hs; [discriminate|]. intros _.
    apply py_le0_false in Hb, Hr, Hs. simpl in Hr.
    repeat split; try assumption.
    exists z. split; [reflexivity | now apply lt_IZR].
  - intros (Hb & (z & -> & Hz) & Hs).
    apply py_le0_false in Hb, Hs. rewrite Hb, Hs.
    assert (Hr : py_le0 (PyInt z) = false).
    { apply py_le0_false. simpl. now apply IZR_lt. }
    rewrite Hr. reflexivity.
Qed.


Lemma valid_input_validate (base_freq ratio phase_deg sr : pynum) :
  valid_input base_freq ratio phase_deg sr ->
  _validate base_freq ratio sr = Ok tt.
Proof.
  intros (Hb & Hr & (s & -> & Hs)). apply _validate_Ok.
  repeat split; try assumption. simpl. now apply IZR_lt.
Qed.

(** ** The NumPy calls *)

Lemma combine_map_same {A B C : Type} (f : A -> B) (g : A -> C) (l : list A) :
  combine (map f l) (map g l) = map (fun x => (f x, g x)) l.
Proof.
  induction l as [|x l IH]; simpl; [reflexivity | now rewrite IH].
Qed.

Lemma np_linspace_nonneg (start stop : R) (num : Z) (dt : dtype) :
  (0 <= num)%Z ->
  np_linspace start stop num dt =
    Ok (mk_ndarray dt
          (map (fun k => INR k * ((stop - start) / IZR num) + start)
               (seq 0 (Z.to_nat num)))).
Proof.
  intros Hn. unfold np_linspace.
  destruct (Z.ltb_spec num 0); [lia | reflexivity].
Qed.

Lemma np_column_stack_map {A : Type} (f g : A -> R) (l : list A)
  (da db : dtype) :
  np_column_stack (mk_ndarray da (map f l)) (mk_ndarray db (map g l)) =
    Ok (mk_ndarray2 (result_type da db) (map (fun x => (f x, g x)) l)).
Proof.
  unfold np_column_stack. simpl. rewrite !length_map, Nat.eqb_refl.
  now rewrite combine_map_same.
Qed.


Lemma clip1_id (lo hi x : R) : lo <= x <= hi -> clip1 lo hi x = x.
Proof.
  intros [H1 H2]. unfold clip1.
  rewrite Rmax_left by exact H1. now apply Rmin_left.
Qed.

Lemma clip1_sin (x : R) : clip1 (-1) 1 (sin x) = sin x.
Proof. apply clip1_id, SIN_bound. Qed.


(** ** The generator on an input that passes validation *)

Lemma sample_product_nonneg (base_freq sr : pynum) (r : Z) :
  0 < py_real base_freq -> (0 < r)%Z -> 0 < py_real sr ->
  0 <= py_real sr * (IZR r / py_real base_freq).
Proof.
  intros Hb Hr Hs. apply IZR_lt in Hr.
  apply Rmult_le_pos; [lra|]. apply Rlt_le, Rdiv_lt_0_compat; lra.
Qed.

(** The run of [generate_lissajous] after validation, before the clip is
    simplified away: the buffer is the clipped column stack of the two
    sine arrays over the [np.linspace] grid. *)
Lemma generate_lissajous_run (base_freq phase_deg sr : pynum) (r : Z) :
  0 < py_real base_freq -> (0 < r)%Z -> 0 < py_real sr ->
  exists raw : ndarray2,
    generate_lissajous base_freq (PyInt r) phase_deg sr =
      Ok (np_clip raw (-1) 1, sr) /\
    dtype_of2 raw = float32 /\
    rows raw =
      map (fun k =>
             (sin (phase_left base_freq (PyInt r) sr k),
              sin (phase_right base_freq (PyInt r) phase_deg sr k)))
          (seq 0 (Z.to_nat (frame_count base_freq (PyInt r) sr))).
Proof.
  intros Hb Hr Hs.
  pose proof (sample_product_nonneg base_freq sr r Hb Hr Hs) as Hprod.
  unfold generate_lissajous.
  assert (Hv : _validate base_freq (PyInt r) sr = Ok tt).
  { apply _validate_Ok. repeat split; try assumption. now exists r. }
  rewrite Hv. cbn [bind].
  rewrite _auto_duration_valid by assumption. cbn [bind].
  rewrite py_int_nonneg by exact Hprod.
  rewrite np_linspace_nonneg by (apply Int_part_nonneg, Hprod). cbn [bind].
  unfold np_sin, np_shift, np_scale. cbn [data dtype_of].
  rewrite !map_map, np_column_stack_map. cbn [bind].
  eexists. split; [reflexivity|]. split; [reflexivity|].
  cbn [rows]. apply map_ext. intros k.
  unfold phase_left, phase_right, sample_time, frame_count, duration_of, np_deg2rad.
  rewrite py_real_mul. cbn [py_real].
  f_equal; f_equal; unfold Rdiv; ring.
Qed.

(** The same run with the clip simplified away: a sine never leaves
    [[-1, 1]], so the clip returns every sample unchanged. *)
Lemma generate_lissajous_frames (base_freq phase_deg sr : pynum) (r : Z) :
  0 < py_real base_freq -> (0 < r)%Z -> 0 < py_real sr ->
  generate_lissajous base_freq (PyInt r) phase_deg sr =
    Ok (mk_ndarray2 float32
          (map (fun k =>
                  (sin (phase_left base_freq (PyInt r) sr k),
                   sin (phase_right base_freq (PyInt r) phase_deg sr k)))
               (seq 0 (Z.to_nat (frame_count base_freq (PyInt r) sr)))),
        sr).
Proof.
  intros Hb Hr Hs.
  destruct (generate_lissajous_run base_freq phase_deg sr r Hb Hr Hs)
    as (raw & Hgen & Hdt & Hrows).
  rewrite Hgen. unfold np_clip. rewrite Hdt, Hrows, map_map. cbn [fst snd].
  do 2 f_equal. f_equal. apply map_ext. intros k. now rewrite !clip1_sin.
Qed.


Lemma valid_input_sr_pos (base_freq ratio phase_deg sr : pynum) :
  valid_input base_freq ratio phase_deg sr -> 0 < py_real sr.
Proof.
  intros (_ & _ & (s & -> & Hs)). simpl. now apply IZR_lt.
Qed.

(** Whatever the input, a returned pair is the clipped buffer together with
    the [sr] argument. *)
Lemma generate_lissajous_returns (base_freq ratio phase_deg sr sr' : pynum)
  (buf : ndarray2) :
  generate_lissajous base_freq ratio phase_deg sr = Ok (buf, sr') ->
  (exists raw : ndarray2, buf = np_clip raw (-1) 1) /\ sr' = sr.
Proof.
  unfold generate_lissajous.
  destruct (_validate base_freq ratio sr); [|discriminate]. cbn [bind].
  destruct (_auto_duration base_freq ratio) as [d|]; [|discriminate].
  cbn [bind].
  destruct (np_linspace 0 d (py_int (py_real sr * d)) float32) as [t|];
    [|discriminate].
  cbn [bind].
  destruct (np_column_stack _ _) as [raw|]; [|discriminate]. cbn [bind].
  intros H. injection H as <- <-. split; [now exists raw | reflexivity].
Qed.

(** An error can only come out of [_validate]. *)
Lemma generate_lissajous_error (base_freq ratio phase_deg sr : pynum) (e : exn) :
  generate_lissajous base_freq ratio phase_deg sr = Raise e ->
  _validate base_freq ratio sr = Raise e.
Proof.
  intros H. destruct (_validate base_freq ratio sr) as [[]|e0] eqn:Hv.
  - apply _validate_Ok in Hv. destruct Hv as (Hb & (r & -> & Hr) & Hs).
    rewrite (generate_lissajous_frames base_freq phase_deg sr r Hb Hr Hs) in H.
    discriminate.
  - unfold generate_lissajous in H. rewrite Hv in H. cbn [bind] in H.
    injection H as ->. reflexivity.
Qed.

(** ** The claims *)






(** ** Closure of the figure *)

Section Closure.

Variables (base_freq phase_deg sr : pynum) (r : Z).
Hypothesis Hb : 0 < py_real base_freq.
Hypothesis Hr : (0 < r)%Z.
Hypothesis HN : (0 < frame_count base_freq (PyInt r) sr)%Z.

Lemma INR_last :
  INR (Z.to_nat (frame_count base_freq (PyInt r) sr) - 1) = IZR (frame_count base_freq (PyInt r) sr) - 1.
Proof.
  rewrite minus_INR by lia.
  rewrite INR_IZR_INZ, Z2Nat.id by lia. simpl. reflexivity.
Qed.

(** The duration holds a whole number of periods of each channel. *)
Lemma whole_periods :
  py_real base_freq * duration_of base_freq (PyInt r) = IZR r /\
  py_real base_freq * IZR r * duration_of base_freq (PyInt r) = IZR (r * r).
Proof.
  unfold duration_of. cbn [py_real]. rewrite mult_IZR.
  split; field; lra.
Qed.

Lemma phase_step_left_eq :
  phase_step_left base_freq (PyInt r) sr = 2 * PI * IZR r / IZR (frame_count base_freq (PyInt r) sr).
Proof.
  assert (HNr : 0 < IZR (frame_count base_freq (PyInt r) sr)) by (apply IZR_lt; exact HN).
  unfold phase_step_left, phase_left, sample_time, duration_of.
  cbn [py_real INR]. field. split; lra.
Qed.

Lemma phase_step_right_eq :
  phase_step_right base_freq (PyInt r) phase_deg sr
    = 2 * PI * IZR (r * r) / IZR (frame_count base_freq (PyInt r) sr).
Proof.
  assert (HNr : 0 < IZR (frame_count base_freq (PyInt r) sr)) by (apply IZR_lt; exact HN).
  unfold phase_step_right, phase_right, sample_time, duration_of.
  cbn [py_real INR]. rewrite mult_IZR. field. split; lra.
Qed.

Lemma phase_left_last :
  phase_left base_freq (PyInt r) sr
      (Z.to_nat (frame_count base_freq (PyInt r) sr) - 1)
    = phase_left base_freq (PyInt r) sr 0 + 2 * PI * IZR r
      - phase_step_left base_freq (PyInt r) sr.
Proof.
  assert (HNr : 0 < IZR (frame_count base_freq (PyInt r) sr)) by (apply IZR_lt; exact HN).
  rewrite phase_step_left_eq.
  unfold phase_left, sample_time, duration_of.
  rewrite INR_last. cbn [py_real INR]. field. split; lra.
Qed.

Lemma phase_right_last :
  phase_right base_freq (PyInt r) phase_deg sr
      (Z.to_nat (frame_count base_freq (PyInt r) sr) - 1)
    = phase_right base_freq (PyInt r) phase_deg sr 0 + 2 * PI * IZR (r * r)
      - phase_step_right base_freq (PyInt r) phase_deg sr.
Proof.
  assert (HNr : 0 < IZR (frame_count base_freq (PyInt r) sr)) by (apply IZR_lt; exact HN).
  rewrite phase_step_right_eq.
  unfold phase_right, sample_time, duration_of.
  rewrite INR_last. cbn [py_real INR]. rewrite mult_IZR. field. split; lra.
Qed.

Lemma phase_step_left_nonneg : 0 <= phase_step_left base_freq (PyInt r) sr.
Proof.
  rewrite phase_step_left_eq.
  assert (HNr : 0 < IZR (frame_count base_freq (PyInt r) sr)) by (apply IZR_lt; exact HN).
  assert (Hrr : 0 < IZR r) by (apply IZR_lt; exact Hr).
  pose proof PI_RGT_0.
  apply Rlt_le, Rdiv_lt_0_compat; [|exact HNr].
  apply Rmult_lt_0_compat; lra.
Qed.

Lemma phase_step_right_nonneg :
  0 <= phase_step_right base_freq (PyInt r) phase_deg sr.
Proof.
  rewrite phase_step_right_eq.
  assert (HNr : 0 < IZR (frame_count base_freq (PyInt r) sr)) by (apply IZR_lt; exact HN).
  assert (Hrr : 0 < IZR (r * r)) by (apply IZR_lt; nia).
  pose proof PI_RGT_0.
  apply Rlt_le, Rdiv_lt_0_compat; [|exact HNr].
  apply Rmult_lt_0_compat; lra.
Qed.

End Closure.

Lemma close_mod_2PI_step_back (a b step : R) (m : Z) :
  0 <= step -> a = b + 2 * PI * IZR m - step -> close_mod_2PI a b step.
Proof.
  intros Hstep ->. exists m.
  replace (b + 2 * PI * IZR m - step - b - 2 * PI * IZR m) with (- step) by ring.
  rewrite Rabs_Ropp, Rabs_pos_eq by exact Hstep. lra.
Qed.

Lemma sin_whole_turns (x : R) (m : Z) :
  (0 <= m)%Z -> sin (x + 2 * PI * IZR m) = sin x.
Proof.
  intros Hm. rewrite <- (sin_period x (Z.to_nat m)).
  rewrite INR_IZR_INZ, Z2Nat.id by exact Hm. f_equal. ring.
Qed.

(** C4: on a valid input with a non-empty buffer the figure closes.  The
    duration holds a whole number of periods of both channels ([ratio] of
    the left one, [ratio * ratio] of the right one), so for each channel the
    phase of the last sample is, modulo whole turns, within one sample step
    of the phase of the first sample; one more step brings both channels
    back to the first frame. *)
Theorem figure_closes (base_freq ratio phase_deg sr : pynum) (buf : ndarray2) :
  valid_input base_freq ratio phase_deg sr ->
  generate_lissajous base_freq ratio phase_deg sr = Ok (buf, sr) ->
  rows buf <> [] ->
  let last := (length (rows buf) - 1)%nat in
  let thetaL := phase_left base_freq ratio sr in
  let thetaR := phase_right base_freq ratio phase_deg sr in
  let stepL := phase_step_left base_freq ratio sr in
  let stepR := phase_step_right base_freq ratio phase_deg sr in
  nth_error (rows buf) 0 = Some (sin (thetaL 0%nat), sin (thetaR 0%nat)) /\
  nth_error (rows buf) last = Some (sin (thetaL last), sin (thetaR last)) /\
  (exists m : Z,
     py_real base_freq * duration_of base_freq ratio = IZR m) /\
  (exists m : Z,
     py_real base_freq * py_real ratio * duration_of base_freq ratio = IZR m) /\
  close_mod_2PI (thetaL last) (thetaL 0%nat) stepL /\
  close_mod_2PI (thetaR last) (thetaR 0%nat) stepR /\
  sin (thetaL last + stepL) = sin (thetaL 0%nat) /\
  sin (thetaR last + stepR) = sin (thetaR 0%nat).
Proof.
  intros Hvalid Hgen Hne. pose proof (valid_input_sr_pos _ _ _ _ Hvalid) as Hs.
  destruct Hvalid as (Hb & (r & -> & Hr) & _).
  rewrite (generate_lissajous_frames base_freq phase_deg sr r Hb Hr Hs) in Hgen.
  injection Hgen as <-. cbn [rows] in *.
  rewrite length_map, length_seq.
  assert (HN : (0 < frame_count base_freq (PyInt r) sr)%Z).
  { destruct (Z.to_nat (frame_count base_freq (PyInt r) sr)) eqn:E;
      [now contradiction Hne | lia]. }
  cbn zeta.
  pose proof (phase_left_last base_freq sr r Hb HN) as HL.
  pose proof (phase_right_last base_freq phase_deg sr r Hb HN) as HR.
  pose proof (whole_periods base_freq r Hb) as [Hp1 Hp2].
  repeat split.
  - rewrite nth_error_map, nth_error_seq.
    destruct (Nat.ltb_spec 0 (Z.to_nat (frame_count base_freq (PyInt r) sr)));
      [reflexivity | lia].
  - rewrite nth_error_map, nth_error_seq.
    destruct (Nat.ltb_spec (Z.to_nat (frame_count base_freq (PyInt r) sr) - 1)
                (Z.to_nat (frame_count base_freq (PyInt r) sr)));
      [reflexivity | lia].
  - exists r. exact Hp1.
  - exists (r * r)%Z. exact Hp2.
  - apply (close_mod_2PI_step_back _ _ _ r);
      [now apply phase_step_left_nonneg | exact HL].
  - apply (close_mod_2PI_step_back _ _ _ (r * r)%Z);
      [now apply phase_step_right_nonneg | exact HR].
  - rewrite HL.
    replace (_ + _ - _ + _)
      with (phase_left base_freq (PyInt r) sr 0 + 2 * PI * IZR r) by ring.
    apply sin_whole_turns. lia.
  - rewrite HR.
    replace (_ + _ - _ + _)
      with (phase_right base_freq (PyInt r) phase_deg sr 0
            + 2 * PI * IZR (r * r)) by ring.
    apply sin_whole_turns. nia.
Qed.

Lemma frame_count_500_3_48000 :
  frame_count (PyInt 500) (PyInt 3) (PyInt 48000) = 288%Z.
Proof.
  unfold frame_count, duration_of. cbn [py_real].
  symmetry. apply Int_part_spec. lra.
Qed.

Lemma valid_input_500_3_45_48000 :
  valid_input (PyInt 500) (PyInt 3) (PyInt 45) (PyInt 48000).
Proof.
  split; [simpl; lra|].
  split; [exists 3%Z | exists 48000%Z]; (split; [reflexivity | lia]).
Qed.

(** The test's input closes: its buffer is not empty and C4 applies. *)
Lemma figure_closes_witness :
  exists buf : ndarray2,
    generate_lissajous (PyInt 500) (PyInt 3) (PyInt 45) (PyInt 48000)
      = Ok (buf, PyInt 48000) /\
    rows buf <> [] /\
    close_mod_2PI
      (phase_left (PyInt 500) (PyInt 3) (PyInt 48000) (length (rows buf) - 1))
      (phase_left (PyInt 500) (PyInt 3) (PyInt 48000) 0)
      (phase_step_left (PyInt 500) (PyInt 3) (PyInt 48000)).
Proof.
  assert (Hb : 0 < py_real (PyInt 500)) by (simpl; lra).
  assert (Hs : 0 < py_real (PyInt 48000)) by (simpl; lra).
  assert (Hr : (0 < 3)%Z) by lia.
  pose proof (generate_lissajous_frames (PyInt 500) (PyInt 45) (PyInt 48000)
                3 Hb Hr Hs) as Hgen.
  eexists. split; [exact Hgen|].
  assert (Hne : rows (mk_ndarray2 float32
                  (map (fun k =>
                     (sin (phase_left (PyInt 500) (PyInt 3) (PyInt 48000) k),
                      sin (phase_right (PyInt 500) (PyInt 3) (PyInt 45)
                             (PyInt 48000) k)))
                     (seq 0 (Z.to_nat (frame_count (PyInt 500) (PyInt 3)
                                         (PyInt 48000)))))) <> []).
  { cbn [rows]. rewrite frame_count_500_3_48000. discriminate. }
  split; [exact Hne|].
  apply (figure_closes _ _ _ _ _ valid_input_500_3_45_48000 Hgen Hne).
Defined.



(** C6: [generate_lissajous(base_freq=500, ratio=3, phase_deg=45,
    sr=48000)] returns a [float32] buffer of shape [(288, 2)] together with
    the sample rate 48000, 288 being [floor(48000 * 3 / 500)]. *)
Theorem generate_lissajous_288_frames :
  exists buf : ndarray2,
    generate_lissajous (PyInt 500) (PyInt 3) (PyInt 45) (PyInt 48000)
      = Ok (buf, PyInt 48000) /\
    generate_lissajous (PyInt 500) (PyInt 3) (PyInt 45) DEFAULT_SR
      = Ok (buf, PyInt 48000) /\
    shape buf = (288%nat, 2%nat) /\
    dtype_of2 buf = float32 /\
    Int_part (48000 * 3 / 500) = 288%Z.
Proof.
  eexists. split; [|split; [|split; [|split]]].
  - apply generate_lissajous_frames; [simpl; lra | lia | simpl; lra].
  - unfold DEFAULT_SR.
    apply generate_lissajous_frames; [simpl; lra | lia | simpl; lra].
  - unfold shape. cbn [rows].
    rewrite length_map, length_seq, frame_count_500_3_48000. reflexivity.
  - reflexivity.
  - symmetry. apply Int_part_spec. lra.
Qed.



(** C8: on every valid input the call returns, and the second component of
    the returned pair is the [sr] argument itself. *)
Theorem generate_lissajous_echoes_sr (base_freq ratio phase_deg sr : pynum) :
  valid_input base_freq ratio phase_deg sr ->
  (exists buf : ndarray2,
     generate_lissajous base_freq ratio phase_deg sr = Ok (buf, sr)) /\
  (forall (buf : ndarray2) (out : pynum),
     generate_lissajous base_freq ratio phase_deg sr = Ok (buf, out) ->
     out = sr).
Proof.
  intros Hvalid. pose proof (valid_input_sr_pos _ _ _ _ Hvalid) as Hs.
  destruct Hvalid as (Hb & (r & -> & Hr) & _). split.
  - eexists. apply generate_lissajous_frames; assumption.
  - intros buf out Hgen.
    now destruct (generate_lissajous_returns _ _ _ _ _ _ Hgen).
Qed.

(** With a sample rate of 44100 the call returns 44100. *)
Lemma generate_lissajous_echoes_sr_witness :
  valid_input (PyInt 440) (PyInt 2) (PyFloat 30) (PyInt 44100) /\
  exists buf : ndarray2,
    generate_lissajous (PyInt 440) (PyInt 2) (PyFloat 30) (PyInt 44100)
      = Ok (buf, PyInt 44100).
Proof.
  assert (H : valid_input (PyInt 440) (PyInt 2) (PyFloat 30) (PyInt 44100)).
  { split; [simpl; lra|].
    split; [exists 2%Z | exists 44100%Z]; (split; [reflexivity | lia]). }
  split; [exact H|].
  exact (proj1 (generate_lissajous_echoes_sr _ _ _ _ H)).
Defined.

(** C9: a [ratio] that is a [float] is always rejected with a [ValueError],
    whatever its value; when [base_freq] is positive the error is the one
    about the ratio, as for [ratio = 3.0] with the other defaults. *)
Theorem float_ratio_rejected (base_freq phase_deg sr : pynum) (x : R) :
  (exists msg : string,
     generate_lissajous base_freq (PyFloat x) phase_deg sr
       = Raise (ValueError msg)) /\
  (py_real base_freq <= 0 \/
   generate_lissajous base_freq (PyFloat x) phase_deg sr
     = Raise (ValueError "ratio must be a positive integer.")) /\
  generate_lissajous DEFAULT_BASE_FREQ (PyFloat 3) DEFAULT_PHASE_DEG DEFAULT_SR
    = Raise (ValueError "ratio must be a positive integer.").
Proof.
  assert (Hgen : forall b p s,
             generate_lissajous b (PyFloat x) p s =
               if py_le0 b then Raise (ValueError "base_freq must be positive.")
               else Raise (ValueError "ratio must be a positive integer.")).
  { intros b p s. unfold generate_lissajous, _validate.
    destruct (py_le0 b); [reflexivity|].
    cbn [isinstance_int negb]. rewrite orb_true_r. reflexivity. }
  split; [|split].
  - rewrite Hgen. destruct (py_le0 base_freq); eauto.
  - rewrite Hgen. destruct (py_le0 base_freq) eqn:Hb.
    + left. now apply py_le0_true.
    + now right.
  - unfold generate_lissajous, _validate.
    assert (Hb : py_le0 DEFAULT_BASE_FREQ = false).
    { apply py_le0_false. simpl. lra. }
    rewrite Hb. cbn [isinstance_int negb]. rewrite orb_true_r. reflexivity.
Qed.



(** ** Further properties of the helpers *)

(** X1: whenever [_lcm] returns on two integers, its result is their least
    common multiple: non-negative, a multiple of both, a divisor of every
    common multiple, and the same in either argument order. *)
Theorem _lcm_least_common_multiple (a b m : Z) :
  _lcm (PyInt a) (PyInt b) = Ok m ->
  (0 <= m)%Z /\ (a | m)%Z /\ (b | m)%Z /\
  (forall c : Z, (a | c)%Z -> (b | c)%Z -> (m | c)%Z) /\
  _lcm (PyInt b) (PyInt a) = Ok m.
Proof.
  intros H. rewrite _lcm_correct in H.
  destruct (Z.eqb_spec (Z.gcd a b) 0) as [|Hg]; [discriminate|].
  injection H as <-.
  split; [apply Z.lcm_nonneg|].
  split; [apply Z.divide_lcm_l|].
  split; [apply Z.divide_lcm_r|].
  split; [intros c Ha Hb; now apply Z.lcm_least|].
  rewrite _lcm_correct, (Z.gcd_comm b a).
  destruct (Z.eqb_spec (Z.gcd a b) 0); [contradiction|].
  now rewrite Z.lcm_comm.
Qed.

(** [_lcm(4, 6)] is 12, the least common multiple of 4 and 6. *)
Lemma _lcm_least_common_multiple_witness :
  _lcm (PyInt 4) (PyInt 6) = Ok 12%Z /\ (4 | 12)%Z /\ (6 | 12)%Z.
Proof.
  assert (H : _lcm (PyInt 4) (PyInt 6) = Ok 12%Z) by reflexivity.
  split; [exact H|].
  destruct (_lcm_least_common_multiple 4 6 12 H) as (_ & Ha & Hb & _).
  now split.
Defined.



(** ** Further properties of the generator *)

Lemma generate_lissajous_raise_validate
  (base_freq ratio phase_deg sr : pynum) (e : exn) :
  generate_lissajous base_freq ratio phase_deg sr = Raise e <->
  _validate base_freq ratio sr = Raise e.
Proof.
  split; [apply generate_lissajous_error|].
  intros H. unfold generate_lissajous. rewrite H. reflexivity.
Qed.

(** A call that returns has passed validation, and returns the frames of
    [generate_lissajous_frames]. *)
Lemma generate_lissajous_Ok_inv
  (base_freq ratio phase_deg sr out : pynum) (buf : ndarray2) :
  generate_lissajous base_freq ratio phase_deg sr = Ok (buf, out) ->
  exists r : Z,
    ratio = PyInt r /\ 0 < py_real base_freq /\ (0 < r)%Z /\
    0 < py_real sr /\ out = sr /\
    buf = mk_ndarray2 float32
            (map (fun k =>
                    (sin (phase_left base_freq (PyInt r) sr k),
                     sin (phase_right base_freq (PyInt r) phase_deg sr k)))
                 (seq 0 (Z.to_nat (frame_count base_freq (PyInt r) sr)))).
Proof.
  intros H.
  destruct (_validate base_freq ratio sr) as [[]|e] eqn:Hv.
  - apply _validate_Ok in Hv. destruct Hv as (Hb & (r & -> & Hr) & Hs).
    rewrite (generate_lissajous_frames base_freq phase_deg sr r Hb Hr Hs) in H.
    injection H as <- <-. exists r. repeat split; assumption.
  - apply (proj2 (generate_lissajous_raise_validate
                    base_freq ratio phase_deg sr e)) in Hv.
    rewrite Hv in H. discriminate.
Qed.




Lemma ratio_check_false (ratio : pynum) :
  py_le0 ratio || negb (isinstance_int ratio) = false <-> positive_int ratio.
Proof.
  unfold positive_int. rewrite orb_false_iff, py_le0_false. split.
  - intros [Hr Hi]. destruct ratio as [z|x]; [|discriminate].
    exists z. split; [reflexivity | now apply lt_IZR].
  - intros (z & -> & Hz). split; [now apply IZR_lt | reflexivity].
Qed.

(** X4: the [ValueError] names the first constraint that fails, in the
    order base frequency, ratio, sample rate: a non-positive [base_freq] is
    reported whatever the other arguments are, a bad [ratio] only when
    [base_freq] is fine, a non-positive [sr] only when both are. *)
Theorem generate_lissajous_error_message
  (base_freq ratio phase_deg sr : pynum) :
  (generate_lissajous base_freq ratio phase_deg sr
     = Raise (ValueError "base_freq must be positive.") <->
   py_real base_freq <= 0) /\
  (generate_lissajous base_freq ratio phase_deg sr
     = Raise (ValueError "ratio must be a positive integer.") <->
   0 < py_real base_freq /\ ~ positive_int ratio) /\
  (generate_lissajous base_freq ratio phase_deg sr
     = Raise (ValueError "sample rate must be positive.") <->
   0 < py_real base_freq /\ positive_int ratio /\ py_real sr <= 0).
Proof.
  rewrite !generate_lissajous_raise_validate.
  unfold _validate.
  destruct (py_le0 base_freq) eqn:Hb.
  - apply py_le0_true in Hb. message_case.
  - apply py_le0_false in Hb.
    destruct (py_le0 ratio || negb (isinstance_int ratio)) eqn:Hr.
    + assert (Hn : ~ positive_int ratio).
      { intros Hp. apply ratio_check_false in Hp. congruence. }
      message_case.
    + apply ratio_check_false in Hr.
      destruct (py_le0 sr) eqn:Hs.
      * apply py_le0_true in Hs. message_case.
      * apply py_le0_false in Hs. message_case.
Qed.



(** X6: with [ratio = 1] and a phase of 90 degrees every frame lies on the
    unit circle, whatever the base frequency and the sample rate: the right
    sample is the cosine of the angle whose sine is the left sample. *)
Theorem quarter_phase_traces_circle
  (base_freq phase_deg sr out : pynum) (buf : ndarray2) :
  py_real phase_deg = 90 ->
  generate_lissajous base_freq (PyInt 1) phase_deg sr = Ok (buf, out) ->
  forall fr : R * R, In fr (rows buf) ->
    fst fr * fst fr + snd fr * snd fr = 1 /\
    exists theta : R, fr = (sin theta, cos theta).
Proof.
  intros Hph Hgen fr Hin.
  destruct (generate_lissajous_Ok_inv _ _ _ _ _ _ Hgen)
    as (r & Hr & Hb & _ & _ & _ & ->).
  injection Hr as <-. cbn [rows] in Hin.
  apply in_map_iff in Hin. destruct Hin as (k & <- & _). cbn [fst snd].
  assert (Hshift : phase_right base_freq (PyInt 1) phase_deg sr k
                   = PI / 2 + phase_left base_freq (PyInt 1) sr k).
  { unfold phase_right, phase_left. rewrite Hph. cbn [py_real]. field. }
  rewrite Hshift, <- cos_sin. split.
  - pose proof (sin2_cos2 (phase_left base_freq (PyInt 1) sr k)) as H.
    unfold Rsqr in H. exact H.
  - eexists. reflexivity.
Qed.

(** The default call returns, and its frames lie on the unit circle. *)
Lemma quarter_phase_traces_circle_witness :
  exists buf : ndarray2,
    generate_lissajous DEFAULT_BASE_FREQ DEFAULT_RATIO DEFAULT_PHASE_DEG
      DEFAULT_SR = Ok (buf, DEFAULT_SR) /\
    forall fr : R * R, In fr (rows buf) ->
      fst fr * fst fr + snd fr * snd fr = 1.
Proof.
  assert (Hb : 0 < py_real DEFAULT_BASE_FREQ) by (simpl; lra).
  assert (Hs : 0 < py_real DEFAULT_SR) by (simpl; lra).
  assert (Hr : (0 < 1)%Z) by lia.
  pose proof (generate_lissajous_frames DEFAULT_BASE_FREQ DEFAULT_PHASE_DEG
                DEFAULT_SR 1 Hb Hr Hs) as Hgen.
  eexists. split; [exact Hgen|].
  intros fr Hin.
  exact (proj1 (quarter_phase_traces_circle DEFAULT_BASE_FREQ
                  DEFAULT_PHASE_DEG DEFAULT_SR DEFAULT_SR _ eq_refl Hgen
                  fr Hin)).
Defined.




(** The run of the test's call, with its 288 frames. *)
Lemma generate_lissajous_500_3_45 :
  exists buf : ndarray2,
    generate_lissajous (PyInt 500) (PyInt 3) (PyInt 45) (PyInt 48000)
      = Ok (buf, PyInt 48000) /\
    length (rows buf) = 288%nat.
Proof.
  assert (Hb : 0 < py_real (PyInt 500)) by (simpl; lra).
  assert (Hs : 0 < py_real (PyInt 48000)) by (simpl; lra).
  assert (Hr : (0 < 3)%Z) by lia.
  eexists. split.
  - apply (generate_lissajous_frames (PyInt 500) (PyInt 45) (PyInt 48000)
             3 Hb Hr Hs).
  - cbn [rows]. rewrite length_map, length_seq, frame_count_500_3_48000.
    reflexivity.
Qed.










(** ** The wrappers *)



(** X15: what [plot_lissajous] draws: one [plt.plot] call, followed by the
    title, axis, label and grid calls and [plt.show]; the plotted [x] and
    [y] run through the buffer twice, so each has twice as many points as
    the buffer has frames and point [k + N] repeats point [k], the left
    sample on [x] and the right sample on [y]. *)
Theorem plot_lissajous_draws_buffer_twice
  (title : pynum -> pynum -> pynum -> string)
  (base_freq ratio phase_deg sr out : pynum) (buf : ndarray2) :
  generate_lissajous base_freq ratio phase_deg sr = Ok (buf, out) ->
  exists x y : ndarray,
    plot_lissajous true title base_freq ratio phase_deg sr
      = Drawn [plt_plot x y (8 / 10);
               plt_title (title base_freq ratio phase_deg);
               plt_axis "equal";
               plt_xlabel "Left channel";
               plt_ylabel "Right channel";
               plt_grid ":";
               plt_show] /\
    length (data x) = (2 * length (rows buf))%nat /\
    length (data y) = (2 * length (rows buf))%nat /\
    forall (k : nat) (fr : R * R),
      nth_error (rows buf) k = Some fr ->
      nth_error (data x) k = Some (fst fr) /\
      nth_error (data x) (k + length (rows buf)) = Some (fst fr) /\
      nth_error (data y) k = Some (snd fr) /\
      nth_error (data y) (k + length (rows buf)) = Some (snd fr).
Proof.
  intros Hgen. unfold plot_lissajous. cbn [negb]. rewrite Hgen.
  cbn [np_T_unpack np_vstack rows dtype_of2].
  eexists _, _. split; [reflexivity|]. cbn [data].
  rewrite !length_map, length_app.
  split; [lia|]. split; [lia|].
  intros k fr Hk.
  assert (Hlt : (k < length (rows buf))%nat).
  { apply nth_error_Some. congruence. }
  assert (H1 : nth_error (rows buf ++ rows buf) k = Some fr).
  { rewrite nth_error_app1 by exact Hlt. exact Hk. }
  assert (H2 : nth_error (rows buf ++ rows buf) (k + length (rows buf))
               = Some fr).
  { rewrite nth_error_app2 by lia.
    replace (k + length (rows buf) - length (rows buf))%nat with k by lia.
    exact Hk. }
  rewrite !nth_error_map, H1, H2. repeat split; reflexivity.
Qed.

(** The test's buffer of 288 frames is drawn as a path of 576 points. *)
Lemma plot_lissajous_draws_buffer_twice_witness :
  exists (x y : ndarray) (rest : list plt_call),
    plot_lissajous true (fun _ _ _ => "Lissajous"%string)
      (PyInt 500) (PyInt 3) (PyInt 45) (PyInt 48000)
      = Drawn (plt_plot x y (8 / 10) :: rest) /\
    length (data x) = 576%nat.
Proof.
  destruct generate_lissajous_500_3_45 as (buf & Hgen & Hlen).
  destruct (plot_lissajous_draws_buffer_twice
              (fun _ _ _ => "Lissajous"%string) _ _ _ _ _ _ Hgen)
    as (x & y & Hplot & Hx & _).
  exists x, y. eexists. split; [exact Hplot|].
  rewrite Hx, Hlen. reflexivity.
Defined.
